(** * The reduced-SQP dispatcher and its aggregation adapters

    A shallow embedding of [SU2_PY/SU2/opt/reducedSQP.py]: the adapter
    functions [f], [df], [ddf], [feq], [fieq], the stand-in curvature
    [unit_hessian] and the mode dispatcher [reduced_sqp].

    Numbers are the elements of an arbitrary ring [R] (exact arithmetic; the
    Python integer [0] and the float [0.0] are both the zero of [R]).  Python
    lists are [seq]; the loops keep the order in which the source adds. *)

From mathcomp Require Import ssreflect ssrfun ssrbool eqtype ssrnat seq bigop.
From mathcomp Require Import ssralg ssrint rat.
From Stdlib Require Import String Ascii.

Set Implicit Arguments.
Unset Strict Implicit.
Unset Printing Implicit Defensive.

Import GRing.Theory.
Local Open Scope ring_scope.

(** ** Exceptions and results of a call *)

Inductive exn : Type :=
| NameError (name : string)
| UnboundLocalError (name : string)
| KeyError (key : string)
| IndexError
| TypeError.

Inductive outcome (A : Type) : Type :=
| Return (a : A)
| Raise (e : exn).

Arguments Return {A} a.
Arguments Raise {A} e.

Definition obind {A B : Type} (m : outcome A) (k : A -> outcome B) : outcome B :=
  match m with
  | Return a => k a
  | Raise e => Raise e
  end.

Notation "x <-- m ;; k" := (obind m (fun x => k))
  (at level 61, m at next level, right associativity).

(** A [for] loop over a list whose body may raise: the state is threaded
    through the iterations and the first exception ends the loop. *)
Fixpoint for_each {S T : Type} (body : S -> T -> outcome S) (s : seq T) (st : S)
  : outcome S :=
  match s with
  | [::] => Return st
  | x :: s' => st' <-- body st x ;; for_each body s' st'
  end.

(** [s[i]] and [s[i] = v] on a Python list, for an index [i >= 0]. *)
Fixpoint getitem {T : Type} (s : seq T) (i : nat) : outcome T :=
  match s, i with
  | [::], _ => Raise IndexError
  | x :: _, 0%N => Return x
  | _ :: s', i'.+1 => getitem s' i'
  end.

Fixpoint setitem {T : Type} (s : seq T) (i : nat) (v : T) : outcome (seq T) :=
  match s, i with
  | [::], _ => Raise IndexError
  | _ :: s', 0%N => Return (v :: s')
  | x :: s', i'.+1 => s'' <-- setitem s' i' v ;; Return (x :: s'')
  end.

Section Adapters.

Variable R : pzRingType.

(** ** Python values the adapters can return *)

Inductive pyval : Type :=
| PyNone
| PyList (s : seq R)
| NdArray (s : seq R)
| NdMatrix (rows : seq (seq R)).

(** Truth value of a list in an [if]: empty is false. *)
Definition truthy (s : seq R) : bool := ~~ nilp s.

(** [np.array] of a flat list, [np.zeros([n])], [np.size] of a vector,
    [np.identity(n)] and unary minus. *)
Definition np_array (s : seq R) : pyval := NdArray s.

Definition np_zeros (n : nat) : pyval := NdArray (nseq n 0).

Definition np_size (x : seq R) : nat := size x.

Definition np_identity (n : nat) : pyval :=
  NdMatrix [seq [seq (if i == j then 1 else 0) | j <- iota 0 n] | i <- iota 0 n].

Definition neg (v : pyval) : outcome pyval :=
  match v with
  | NdArray s => Return (NdArray [seq - a | a <- s])
  | NdMatrix rows => Return (NdMatrix [seq [seq - a | a <- r] | r <- rows])
  | PyList _ | PyNone => Raise TypeError
  end.

(** ** The project, as far as this module uses it *)

Record Project : Type := MkProject {
  config : seq (string * string);
  obj_f : seq R -> seq R;
  obj_df : seq R -> seq (seq R);
  obj_ddf : seq R -> seq (seq R);
  con_ceq : seq R -> seq R;
  con_cieq : seq R -> seq R
}.

(** The module-level name [glob_project]: unbound until the dispatcher
    assigns it. *)
Definition globals : Type := option Project.

Definition read_glob_project (g : globals) : outcome Project :=
  match g with
  | Some p => Return p
  | None => Raise (NameError "glob_project")
  end.

(** ** Hessian fallback *)

Definition unit_hessian (x : seq R) (project : Project) : pyval :=
  np_identity (np_size x).

(** ** Aggregation adapters *)

Definition f (g : globals) (x : seq R) : outcome R :=
  glob_project <-- read_glob_project g ;;
  let obj_list := obj_f glob_project x in
  let obj := foldl (fun obj this_obj => obj + this_obj) 0 obj_list in
  Return obj.

(** One pass of the inner loop: [dobj[idv] = dobj[idv] + this_dv_dobj; idv += 1]. *)
Definition add_at (st : seq R * nat) (this_dv_dobj : R) : outcome (seq R * nat) :=
  let: (dobj, idv) := st in
  old <-- getitem dobj idv ;;
  dobj' <-- setitem dobj idv (old + this_dv_dobj) ;;
  Return (dobj', idv.+1).

(** One pass of the outer loop: [idv = 0], then the inner loop. *)
Definition add_contribution (dobj : seq R) (this_dobj : seq R) : outcome (seq R) :=
  st <-- for_each add_at this_dobj (dobj, 0%N) ;;
  Return st.1.

Definition df (g : globals) (x : seq R) : outcome pyval :=
  glob_project <-- read_glob_project g ;;
  let dobj_list := obj_df glob_project x in
  first <-- getitem dobj_list 0 ;;
  let dobj := nseq (size first) 0 in
  dobj <-- for_each add_contribution dobj_list dobj ;;
  Return (np_array dobj).

Definition ddf (g : globals) (x : seq R) : outcome pyval :=
  glob_project <-- read_glob_project g ;;
  let dobj_list := obj_ddf glob_project x in
  first <-- getitem dobj_list 0 ;;
  let dobj := nseq (size first) 0 in
  dobj <-- for_each add_contribution dobj_list dobj ;;
  Return (np_array dobj).

Definition feq (g : globals) (x : seq R) : outcome pyval :=
  glob_project <-- read_glob_project g ;;
  let cons := con_ceq glob_project x in
  let cons := if truthy cons then np_array cons else np_zeros 0 in
  Return cons.

Definition fieq (g : globals) (x : seq R) : outcome pyval :=
  glob_project <-- read_glob_project g ;;
  let cons := con_cieq glob_project x in
  let cons := if truthy cons then np_array cons else np_zeros 0 in
  neg cons.

End Adapters.

Arguments PyNone {R}.

(** ** The dispatcher *)

Section Dispatcher.

Variable R : pzRingType.

(** What the caller hands in and gets back without this module looking
    inside: the function handles other than the curvature, the box bounds and
    the result object of a back end. *)
Variables (handle bounds result : Type).

(** The curvature handle has the signature of [unit_hessian], which replaces
    it in one mode. *)
Definition curvature : Type := seq R -> Project R -> pyval R.

(** A bound of a constraint descriptor; [PosInf] is [np.inf]. *)
Inductive bound : Type :=
| Finite (r : R)
| PosInf.

Record NonlinearConstraint : Type := MkNonlinearConstraint {
  nc_fun : globals R -> seq R -> outcome (pyval R);
  nc_lb : bound;
  nc_ub : bound
}.

(** A call of a numerical back end, with the arguments in the order of the
    source. *)
Inductive backend_call : Type :=
| minimize (fun_ : globals R -> seq R -> outcome R) (x0 : seq R)
    (method : string) (jac hess : globals R -> seq R -> outcome (pyval R))
    (constraints : seq NonlinearConstraint) (bnds : bounds) (tol : R)
    (options : seq (string * nat))
| SQPconstrained (x0 : seq R)
    (func f_eqcons f_ieqcons fprime fprime_eqcons fprime_ieqcons : handle)
    (fdotdot : curvature) (project : Project R) (iter : nat) (acc : R)
    (extra : pyval R)
| SQPequalconstrained (x0 : seq R)
    (func f_eqcons fprime fprime_eqcons : handle)
    (fdotdot : curvature) (project : Project R) (iter : nat) (acc : R)
    (extra : pyval R).

(** The effects of the dispatcher, in program order: text written to
    standard output, the assignment of [glob_project], the call of a back end
    (whose result the rest of the program receives), and the way the function
    ends. *)
Inductive prog (A : Type) : Type :=
| Ret (a : A)
| Throw (e : exn)
| Write (text : string) (k : prog A)
| SetGlobProject (p : Project R) (k : prog A)
| Invoke (c : backend_call) (k : result -> prog A).

Arguments Ret {A} a.
Arguments Throw {A} e.
Arguments Write {A} text k.
Arguments SetGlobProject {A} p k.
Arguments Invoke {A} c k.

Fixpoint pbind {A B : Type} (m : prog A) (k : A -> prog B) : prog B :=
  match m with
  | Ret a => k a
  | Throw e => Throw e
  | Write text m' => Write text (pbind m' k)
  | SetGlobProject p m' => SetGlobProject p (pbind m' k)
  | Invoke c m' => Invoke c (fun r => pbind (m' r) k)
  end.

Notation "'let*' x ':=' m 'in' k" := (pbind m (fun x => k))
  (at level 200, x name, m at level 100, k at level 200).
Notation "m ';;;' k" := (pbind m (fun _ => k))
  (at level 62, right associativity).

Definition stdout_write (text : string) : prog unit := Write text (Ret tt).

Definition set_glob_project (p : Project R) : prog unit := SetGlobProject p (Ret tt).

Definition invoke (c : backend_call) : prog result := Invoke c (fun r => Ret r).

(** [d[k]] on the configuration. *)
Fixpoint lookup (d : seq (string * string)) (k : string) : option string :=
  match d with
  | [::] => None
  | (k', v) :: d' => if String.eqb k' k then Some v else lookup d' k
  end.

Definition config_getitem (d : seq (string * string)) (k : string) : prog string :=
  match lookup d k with
  | Some v => Ret v
  | None => Throw (KeyError k)
  end.

(** Reading a local variable that some branches assign and others do not. *)
Definition read_local (name : string) (v : option result) : prog result :=
  match v with
  | Some r => Ret r
  | None => Throw (UnboundLocalError name)
  end.

Definition nl : string := String (ascii_of_nat 10) EmptyString.

Definition reduced_sqp (x0 : seq R)
    (func f_eqcons f_ieqcons fprime fprime_eqcons fprime_ieqcons : handle)
    (fdotdot : curvature) (project : Project R) (iter : nat) (acc : R)
    (xb : bounds) : prog result :=
  let* SQP_MODE := config_getitem (config project) "SQP_MODE" in
  let* outputs :=
    if String.eqb SQP_MODE "SCIPY" then
      let opt := [:: ("maxiter"%string, iter); ("verbose"%string, 3%N)] in
      let equal := MkNonlinearConstraint (@feq R) (Finite 0) (Finite 0) in
      let inequal := MkNonlinearConstraint (@fieq R) (Finite 0) PosInf in
      set_glob_project project ;;;
      let* outputs :=
        invoke (minimize (@f R) x0 "trust-constr" (@df R) (@ddf R)
                  [:: equal; inequal] xb acc opt) in
      Ret (Some outputs)
    else if String.eqb SQP_MODE "SQP_CVXOPT" then
      stdout_write ("Using implemented SQP version. " ++ nl) ;;;
      let* outputs :=
        invoke (SQPconstrained x0 func f_eqcons f_ieqcons
                  fprime fprime_eqcons fprime_ieqcons fdotdot
                  project iter acc PyNone) in
      Ret (Some outputs)
    else if String.eqb SQP_MODE "SQP_LES" then
      stdout_write ("Using implemented SQP version. " ++ nl) ;;;
      let* outputs :=
        invoke (SQPequalconstrained x0 func f_eqcons
                  fprime fprime_eqcons fdotdot
                  project iter acc PyNone) in
      Ret (Some outputs)
    else if String.eqb SQP_MODE "SIMPLIFIED" then
      stdout_write ("Using simplified SQP iterations " ++ nl) ;;;
      let* outputs :=
        invoke (SQPequalconstrained x0 func f_eqcons
                  fprime fprime_eqcons (@unit_hessian R)
                  project iter acc PyNone) in
      Ret (Some outputs)
    else
      stdout_write ("Please choose a valid SQP_MODE! " ++ nl) ;;;
      Ret None in
  read_local "outputs" outputs.

(** Whether a program reaches the call of a back end. *)
Fixpoint invokes_backend {A : Type} (m : prog A) : bool :=
  match m with
  | Ret _ | Throw _ => false
  | Write _ k | SetGlobProject _ k => invokes_backend k
  | Invoke _ _ => true
  end.

(** Running a program against an implementation of the back ends. *)
Record world : Type := MkWorld {
  stdout : seq string;
  glob_project : globals R
}.

Fixpoint run {A : Type} (backend : backend_call -> world -> outcome result * world)
    (m : prog A) (w : world) : outcome A * world :=
  match m with
  | Ret a => (Return a, w)
  | Throw e => (Raise e, w)
  | Write text k => run backend k (MkWorld (rcons (stdout w) text) (glob_project w))
  | SetGlobProject p k => run backend k (MkWorld (stdout w) (Some p))
  | Invoke c k =>
      match backend c w with
      | (Return r, w') => run backend (k r) w'
      | (Raise e, w') => (Raise e, w')
      end
  end.

End Dispatcher.

Arguments Ret {R handle bounds result A} a.
Arguments Throw {R handle bounds result A} e.
Arguments Write {R handle bounds result A} text k.
Arguments SetGlobProject {R handle bounds result A} p k.
Arguments Invoke {R handle bounds result A} c k.
Arguments minimize {R handle bounds}.
Arguments SQPconstrained {R handle bounds}.
Arguments SQPequalconstrained {R handle bounds}.

(** ** The accumulator as a function *)

(** The effect of one contribution on the accumulator, as a function: the
    entries of [c] are added to the entries of [d] at the same index, and the
    entries of [d] beyond the end of [c] are kept. *)
Fixpoint addv {R : pzRingType} (d c : seq R) : seq R :=
  match d, c with
  | a :: d', b :: c' => (a + b) :: addv d' c'
  | _, _ => d
  end.

(** ** Concrete projects *)

Definition demo_project (mode : string) : Project int :=
  MkProject [:: ("SQP_MODE"%string, mode)]
    (fun _ => [:: 3%:Z; - 1%:Z])
    (fun _ => [:: [:: 1%:Z; 2%:Z]; [:: 5%:Z; - 5%:Z]])
    (fun _ => [:: [:: 1%:Z; 0%:Z]; [:: 0%:Z; 1%:Z]])
    (fun _ => [::])
    (fun _ => [:: - 2%:Z; 5%:Z]).

Definition bare_project : Project int :=
  MkProject [:: ("SQP_MODE"%string, "BOGUS"%string)]
    (fun _ => [::]) (fun _ => [::]) (fun _ => [::]) (fun _ => [::]) (fun _ => [::]).

Definition ragged_project : Project int :=
  MkProject [:: ("SQP_MODE"%string, "SCIPY"%string)]
    (fun _ => [:: 1%:Z])
    (fun _ => [:: [:: 1%:Z; 2%:Z; 3%:Z]; [:: 10%:Z]; [::]; [:: 20%:Z; 30%:Z]])
    (fun _ => [::]) (fun _ => [::]) (fun _ => [::]).

(** The project of the end-to-end scenario, over the rationals. *)
Definition scenario_project : Project rat :=
  MkProject [:: ("SQP_MODE"%string, "SCIPY"%string)]
    (fun _ => [:: 3%:Q; - 1%:Q])
    (fun _ => [:: [:: 1%:Q; 2%:Q]; [:: 1%:Q / 2%:Q; - (1%:Q / 2%:Q)]])
    (fun _ => [::])
    (fun _ => [::])
    (fun _ => [:: - 2%:Q; 1%:Q / 2%:Q]).

(** A project whose second gradient and curvature contributions are longer
    than the first. *)
Definition overlong_project : Project int :=
  MkProject [:: ("SQP_MODE"%string, "SQP_CVXOPT"%string)]
    (fun _ => [:: 1%:Z])
    (fun _ => [:: [:: 1%:Z]; [:: 1%:Z; 2%:Z]])
    (fun _ => [:: [:: 1%:Z]; [::]; [:: 1%:Z; 2%:Z; 3%:Z]])
    (fun _ => [:: 4%:Z]) (fun _ => [::]).

Definition origin : seq int := [:: 0%:Z; 0%:Z].

(** A back end that answers every call with its starting point. *)
Definition echo_backend (c : @backend_call int string unit) (w : world int)
  : outcome (seq int) * world int :=
  match c with
  | minimize _ x0 _ _ _ _ _ _ _ => (Return x0, w)
  | SQPconstrained x0 _ _ _ _ _ _ _ _ _ _ _ => (Return x0, w)
  | SQPequalconstrained x0 _ _ _ _ _ _ _ _ _ => (Return x0, w)
  end.

Definition zero_curvature : curvature int := fun _ _ => NdMatrix [::].

Definition demo_dispatch (project : Project int)
  : prog int string unit (seq int) (seq int) :=
  @reduced_sqp int string unit (seq int) origin
    "func"%string "f_eqcons"%string "f_ieqcons"%string
    "fprime"%string "fprime_eqcons"%string "fprime_ieqcons"%string
    zero_curvature project 10 0 tt.

(** ** What the loops compute *)

Section Accumulation.

Variable R : pzRingType.
Implicit Types (d c pre : seq R) (l : seq (seq R)).

Lemma foldl_add_sum (a : R) (s : seq R) :
  foldl (fun obj this_obj => obj + this_obj) a s = a + \sum_(v <- s) v.
Proof.
elim: s a => [|v s IH] a /=; first by rewrite big_nil addr0.
by rewrite IH big_cons addrA.
Qed.

Lemma getitem_cat pre (a : R) d : getitem (pre ++ a :: d) (size pre) = Return a.
Proof. by elim: pre. Qed.

Lemma setitem_cat pre (a v : R) d :
  setitem (pre ++ a :: d) (size pre) v = Return (pre ++ v :: d).
Proof. by elim: pre => //= b pre ->. Qed.

Lemma inner_loop c d pre :
  (size c <= size d)%N ->
  for_each (@add_at R) c (pre ++ d, size pre) =
  Return (pre ++ addv d c, (size pre + size c)%N).
Proof.
elim: c d pre => [|b c IH] d pre /=; first by rewrite addn0; case: d.
case: d => // a d; rewrite ltnS => le_cd.
rewrite getitem_cat /= setitem_cat /=.
by rewrite -cat_rcons -(size_rcons pre (a + b)) IH // size_rcons cat_rcons addSnnS.
Qed.

Lemma add_contributionE d c :
  (size c <= size d)%N -> add_contribution d c = Return (addv d c).
Proof. by move=> le_cd; rewrite /add_contribution (inner_loop [::]). Qed.

Lemma size_addv d c : size (addv d c) = size d.
Proof. by elim: d c => [|a d IH] [|b c] //=; rewrite IH. Qed.

Lemma nth_addv d c i :
  (size c <= size d)%N ->
  nth 0 (addv d c) i = nth 0 d i + (if (i < size c)%N then nth 0 c i else 0).
Proof.
elim: d c i => [|a d IH] [|b c] [|i] //=; rewrite ?addr0 //.
by rewrite !ltnS; apply: IH.
Qed.

Lemma outer_loop l d :
  all (fun c => (size c <= size d)%N) l ->
  for_each (@add_contribution R) l d = Return (foldl addv d l).
Proof.
elim: l d => [|c l IH] d //= /andP[le_cd le_ld].
rewrite add_contributionE //= IH // size_addv //.
Qed.

Lemma size_foldl_addv l d : size (foldl addv d l) = size d.
Proof. by elim: l d => [|c l IH] d //=; rewrite IH size_addv. Qed.

Lemma nth_foldl_addv l d i :
  all (fun c => (size c <= size d)%N) l ->
  nth 0 (foldl addv d l) i = nth 0 d i + \sum_(c <- l | (i < size c)%N) nth 0 c i.
Proof.
elim: l d => [|c l IH] d /=; first by rewrite big_nil addr0.
case/andP=> le_cd le_ld.
rewrite IH ?size_addv // nth_addv // big_cons -addrA.
by case: (i < size c)%N; rewrite ?add0r.
Qed.

(** The gradient adapter on a list whose first contribution is the longest. *)
Lemma df_first_longest (p : Project R) (x : seq R) c0 rest :
  obj_df p x = c0 :: rest ->
  all (fun c => (size c <= size c0)%N) rest ->
  df (Some p) x = Return (NdArray (foldl addv (nseq (size c0) 0) (c0 :: rest))).
Proof.
move=> obj_eq le_rest.
rewrite /df /= obj_eq /= -/(for_each _ (c0 :: rest) _) outer_loop //.
by rewrite size_nseq /= leqnn.
Qed.

Lemma nth_df_vector c0 rest i :
  all (fun c => (size c <= size c0)%N) rest ->
  (i < size c0)%N ->
  nth 0 (foldl addv (nseq (size c0) 0) (c0 :: rest)) i
  = \sum_(c <- c0 :: rest | (i < size c)%N) nth 0 c i.
Proof.
move=> le_rest lt_i.
rewrite nth_foldl_addv ?nth_nseq ?lt_i ?add0r //.
by rewrite size_nseq /= leqnn.
Qed.

(** When every contribution has length [n], the index test of the sum is
    always passed below [n]. *)
Lemma sum_same_size l n i :
  all (fun c => size c == n) l -> (i < n)%N ->
  \sum_(c <- l | (i < size c)%N) nth 0 c i = \sum_(c <- l) nth 0 c i.
Proof.
move=> sz_l lt_i; rewrite big_seq_cond [RHS]big_seq.
apply: eq_bigl => c; case c_in: (c \in l) => //=.
by move/allP: sz_l => /(_ c c_in) /eqP->.
Qed.

End Accumulation.

(** ** The aggregation adapters *)

Section AdapterFacts.

Variable R : pzRingType.
Implicit Types (p : Project R) (x : seq R).

(** C1: for every design-variable vector [x], the scalar objective adapter
    returns exactly the sum of the project's objective-contribution list at
    [x], and exactly 0 when that list is empty. *)
Theorem f_sums_objectives p x :
  f (Some p) x = Return (\sum_(c <- obj_f p x) c) /\
  (obj_f p x = [::] -> f (Some p) x = Return 0).
Proof.
have E : f (Some p) x = Return (\sum_(c <- obj_f p x) c).
  by rewrite /f /= foldl_add_sum add0r.
by split=> // obj_nil; rewrite E obj_nil big_nil.
Qed.

(** C10: the gradient adapter checks no lengths.  When the contribution list
    is non-empty and no later contribution is longer than the first, it
    raises nothing and returns a vector of the first contribution's length
    whose entry [i] is the sum of the entries [i] of those contributions that
    have one; a shorter contribution adds nothing beyond its own end. *)
Theorem df_shorter_contributions p x c0 rest :
  obj_df p x = c0 :: rest ->
  all (fun c => (size c <= size c0)%N) rest ->
  exists v,
    [/\ df (Some p) x = Return (NdArray v),
        size v = size c0 &
        forall i, (i < size c0)%N ->
          nth 0 v i = \sum_(c <- c0 :: rest | (i < size c)%N) nth 0 c i].
Proof.
move=> obj_eq le_rest.
exists (foldl addv (nseq (size c0) 0) (c0 :: rest)); split.
- exact: df_first_longest.
- by rewrite size_foldl_addv size_nseq.
- by move=> i lt_i; apply: nth_df_vector.
Qed.

(** C2: when the project returns a non-empty list of gradient contributions
    that all have length [n], the gradient adapter returns a vector of length
    [n] whose entry [i] is the sum of the entries [i] of all contributions. *)
Theorem df_elementwise_sum p x n :
  (0 < size (obj_df p x))%N ->
  all (fun c => size c == n) (obj_df p x) ->
  exists v,
    [/\ df (Some p) x = Return (NdArray v),
        size v = n &
        forall i, (i < n)%N -> nth 0 v i = \sum_(c <- obj_df p x) nth 0 c i].
Proof.
case obj_eq: (obj_df p x) => [|c0 rest] // _ sz_all.
have /andP[/eqP sz0 sz_rest] := sz_all.
have le_rest : all (fun c => (size c <= size c0)%N) rest.
  by apply: sub_all sz_rest => c /eqP->; rewrite sz0.
exists (foldl addv (nseq (size c0) 0) (c0 :: rest)); split.
- exact: df_first_longest.
- by rewrite size_foldl_addv size_nseq.
- move=> i lt_i; rewrite (nth_df_vector le_rest) ?sz0 //.
  exact: (sum_same_size sz_all lt_i).
Qed.

(** C8, as the code has it: with an empty gradient-contribution list there is
    no first contribution to take the length from, and the gradient adapter
    ends with an index error instead of a vector. *)
Theorem df_empty_raises p x :
  obj_df p x = [::] -> df (Some p) x = Raise IndexError.
Proof. by move=> obj_nil; rewrite /df /= obj_nil. Qed.

(** C3: when the project's inequality-constraint vector is non-empty, the
    inequality adapter returns its element-wise negation. *)
Theorem fieq_negates p x :
  (0 < size (con_cieq p x))%N ->
  exists out,
    [/\ fieq (Some p) x = Return (NdArray out),
        size out = size (con_cieq p x) &
        forall i, (i < size (con_cieq p x))%N ->
          nth 0 out i = - nth 0 (con_cieq p x) i].
Proof.
move=> nonempty; exists [seq - a | a <- con_cieq p x]; split.
- by rewrite /fieq /= /truthy; case: (con_cieq p x) nonempty.
- by rewrite size_map.
- by move=> i lt_i; rewrite (nth_map 0).
Qed.

(** C4: an empty equality-constraint list makes the equality adapter return a
    vector of length zero (an array, neither [None] nor a list), and an empty
    inequality-constraint list does the same for the inequality adapter. *)
Theorem empty_constraints_zero_length p x :
  (con_ceq p x = [::] -> feq (Some p) x = Return (NdArray [::])) /\
  (con_cieq p x = [::] -> fieq (Some p) x = Return (NdArray [::])).
Proof. by split=> cons_nil; rewrite /feq /fieq /= cons_nil. Qed.

(** C9: for an input vector of length [n] the Hessian fallback returns the
    [n]-by-[n] identity matrix, whatever the project and the entries of the
    vector are. *)
Theorem unit_hessian_identity x p :
  (exists rows,
    [/\ unit_hessian x p = NdMatrix rows,
        size rows = size x,
        forall i, (i < size x)%N -> size (nth [::] rows i) = size x &
        forall i j, (i < size x)%N -> (j < size x)%N ->
          nth 0 (nth [::] rows i) j = (i == j)%:R]) /\
  (forall x' p', size x' = size x -> unit_hessian x' p' = unit_hessian x p).
Proof.
split; last by move=> x' p' sz; rewrite /unit_hessian /np_size sz.
eexists; split; first by [].
- by rewrite size_map size_iota.
- by move=> i lt_i; rewrite (nth_map 0%N) ?size_iota // size_map size_iota.
- move=> i j lt_i lt_j.
  rewrite (nth_map 0%N) ?size_iota // (nth_map 0%N) ?size_iota //.
  by rewrite !nth_iota // !add0n; case: (i == j).
Qed.

End AdapterFacts.

(** ** The dispatcher *)

Section DispatcherFacts.

Variable R : pzRingType.
Variables (handle bounds result : Type).
Implicit Types (fdotdot : curvature R) (project : Project R).
Implicit Types (iter : nat) (acc : R) (xb : bounds).
Implicit Types (func f_eqcons f_ieqcons fprime fprime_eqcons fprime_ieqcons : handle).

Notation dispatch := (@reduced_sqp R handle bounds result).
Notation program := (prog R handle bounds result result).

(** C5: in mode SIMPLIFIED the dispatcher calls the equality-only back end
    with [unit_hessian] in the place of the curvature handle; the handle it
    was given reaches no back end, so that replacing it changes nothing. *)
Theorem simplified_passes_unit_hessian
    x0 func f_eqcons f_ieqcons fprime fprime_eqcons fprime_ieqcons fdotdot
    project iter acc xb :
  lookup (config project) "SQP_MODE" = Some "SIMPLIFIED"%string ->
  dispatch x0 func f_eqcons f_ieqcons fprime fprime_eqcons fprime_ieqcons
    fdotdot project iter acc xb
  = Write ("Using simplified SQP iterations " ++ nl)
      (Invoke (SQPequalconstrained x0 func f_eqcons fprime fprime_eqcons
                 (@unit_hessian R) project iter acc PyNone)
              (fun r => Ret r)) /\
  forall fdotdot',
    dispatch x0 func f_eqcons f_ieqcons fprime fprime_eqcons fprime_ieqcons
      fdotdot' project iter acc xb
    = dispatch x0 func f_eqcons f_ieqcons fprime fprime_eqcons fprime_ieqcons
        fdotdot project iter acc xb.
Proof. by move=> mode; rewrite /reduced_sqp /config_getitem mode. Qed.

(** C6: in mode SQP_LES the inequality-constraint handle and the
    inequality-gradient handle are not used: the one back-end call carries
    neither, and for any two values of them the dispatcher is the same
    program, with the same outcome under every back end. *)
Theorem sqp_les_ignores_inequality_handles
    x0 func f_eqcons f_ieqcons fprime fprime_eqcons fprime_ieqcons fdotdot
    project iter acc xb f_ieqcons' fprime_ieqcons' :
  lookup (config project) "SQP_MODE" = Some "SQP_LES"%string ->
  [/\ dispatch x0 func f_eqcons f_ieqcons fprime fprime_eqcons fprime_ieqcons
        fdotdot project iter acc xb
      = Write ("Using implemented SQP version. " ++ nl)
          (Invoke (SQPequalconstrained x0 func f_eqcons fprime fprime_eqcons
                     fdotdot project iter acc PyNone)
                  (fun r => Ret r)),
      dispatch x0 func f_eqcons f_ieqcons' fprime fprime_eqcons fprime_ieqcons'
        fdotdot project iter acc xb
      = dispatch x0 func f_eqcons f_ieqcons fprime fprime_eqcons fprime_ieqcons
          fdotdot project iter acc xb &
      forall backend (w : world R),
        run backend
          (dispatch x0 func f_eqcons f_ieqcons' fprime fprime_eqcons
             fprime_ieqcons' fdotdot project iter acc xb) w
        = run backend
            (dispatch x0 func f_eqcons f_ieqcons fprime fprime_eqcons
               fprime_ieqcons fdotdot project iter acc xb) w].
Proof. by move=> mode; rewrite /reduced_sqp /config_getitem mode. Qed.

(** C7: for a mode that is none of SCIPY, SQP_CVXOPT, SQP_LES and SIMPLIFIED
    the dispatcher writes the invalid-mode message, calls no back end and
    hands back no result: it ends on the read of the unassigned [outputs]. *)
Theorem unknown_mode_reports_and_stops
    x0 func f_eqcons f_ieqcons fprime fprime_eqcons fprime_ieqcons fdotdot
    project iter acc xb (mode : string) :
  lookup (config project) "SQP_MODE" = Some mode ->
  mode <> "SCIPY"%string -> mode <> "SQP_CVXOPT"%string ->
  mode <> "SQP_LES"%string -> mode <> "SIMPLIFIED"%string ->
  let body : program :=
    dispatch x0 func f_eqcons f_ieqcons fprime fprime_eqcons fprime_ieqcons
      fdotdot project iter acc xb in
  [/\ body = Write ("Please choose a valid SQP_MODE! " ++ nl)
               (Throw (UnboundLocalError "outputs")),
      invokes_backend body = false &
      forall backend (w : world R),
        run backend body w
        = (Raise (UnboundLocalError "outputs"),
           MkWorld (rcons (stdout w) ("Please choose a valid SQP_MODE! " ++ nl)%string)
                   (glob_project w))].
Proof.
move=> mode_eq /String.eqb_neq ne1 /String.eqb_neq ne2.
move=> /String.eqb_neq ne3 /String.eqb_neq ne4 body.
have -> : body = Write ("Please choose a valid SQP_MODE! " ++ nl)
                   (Throw (UnboundLocalError "outputs")).
  by rewrite /body /reduced_sqp /config_getitem mode_eq /= ne1 ne2 ne3 ne4.
by [].
Qed.

End DispatcherFacts.

(** ** The adapters and the dispatcher on concrete inputs *)

Example objective_int :
  f (Some (demo_project "SCIPY")) origin = Return 2%:Z.
Proof. by []. Qed.

Example objective_unbound_global : f None origin = Raise (NameError "glob_project").
Proof. by []. Qed.

Example gradient_int :
  df (Some (demo_project "SCIPY")) origin = Return (NdArray [:: 6%:Z; - 3%:Z]).
Proof. by []. Qed.

Example gradient_ragged :
  df (Some ragged_project) origin = Return (NdArray [:: 31%:Z; 32%:Z; 3%:Z]).
Proof. by []. Qed.

(** A later contribution longer than the first runs off the accumulator. *)
Example gradient_overlong :
  df (Some (MkProject [::] (fun _ => [::])
              (fun _ => [:: [:: 1%:Z]; [:: 1%:Z; 2%:Z]])
              (fun _ => [::]) (fun _ => [::]) (fun _ => [::]))) origin
  = Raise IndexError.
Proof. by []. Qed.

Example inequality_int :
  fieq (Some (demo_project "SCIPY")) origin = Return (NdArray [:: 2%:Z; - 5%:Z]).
Proof. by []. Qed.

Example equality_int :
  feq (Some (demo_project "SCIPY")) origin = Return (NdArray [::]).
Proof. by []. Qed.

Example unit_hessian_1 :
  unit_hessian [:: 4%:Z] bare_project = NdMatrix [:: [:: 1%:Z]].
Proof. by []. Qed.

Example unit_hessian_3 :
  unit_hessian [:: 4%:Z; 5%:Z; 6%:Z] bare_project
  = NdMatrix [:: [:: 1%:Z; 0%:Z; 0%:Z]; [:: 0%:Z; 1%:Z; 0%:Z]; [:: 0%:Z; 0%:Z; 1%:Z]].
Proof. by []. Qed.

Example scipy_publishes_project :
  run echo_backend (demo_dispatch (demo_project "SCIPY")) (MkWorld [::] None)
  = (Return origin, MkWorld [::] (Some (demo_project "SCIPY"))).
Proof. by []. Qed.

Example cvxopt_runs :
  run echo_backend (demo_dispatch (demo_project "SQP_CVXOPT")) (MkWorld [::] None)
  = (Return origin, MkWorld [:: ("Using implemented SQP version. " ++ nl)%string] None).
Proof. by []. Qed.

Example missing_mode_key :
  demo_dispatch (MkProject [::] (fun _ => [::]) (fun _ => [::]) (fun _ => [::])
                   (fun _ => [::]) (fun _ => [::]))
  = Throw (KeyError "SQP_MODE").
Proof. by []. Qed.

(** The end-to-end scenario: objectives [3, -1], gradients [[1, 2], [1/2, -1/2]],
    inequality values [-2, 1/2], no equality constraint. *)
Ltac entrywise :=
  do ![congr Return | congr NdArray | congr cons]; apply/eqP.

Example scenario_objective : f (Some scenario_project) [::] = Return 2%:Q.
Proof. by rewrite /f /=; entrywise. Qed.

Example scenario_gradient :
  df (Some scenario_project) [::] = Return (NdArray [:: 3%:Q / 2%:Q; 3%:Q / 2%:Q]).
Proof. by rewrite /df /=; entrywise. Qed.

Example scenario_inequality :
  fieq (Some scenario_project) [::] = Return (NdArray [:: 2%:Q; - (1%:Q / 2%:Q)]).
Proof. by rewrite /fieq /=; entrywise. Qed.

Example scenario_equality :
  feq (Some scenario_project) [::] = Return (NdArray [::]).
Proof. by []. Qed.

(** ** The theorems at concrete inputs *)

Lemma f_sums_objectives_witness :
  obj_f bare_project origin = [::] /\ f (Some bare_project) origin = Return 0.
Proof.
split; first by [].
by apply: (proj2 (f_sums_objectives bare_project origin)).
Defined.

Lemma df_shorter_contributions_witness :
  exists v,
    [/\ df (Some ragged_project) origin = Return (NdArray v),
        size v = 3 &
        forall i, (i < 3)%N ->
          nth 0 v i = \sum_(c <- obj_df ragged_project origin | (i < size c)%N) nth 0 c i].
Proof.
by apply: (@df_shorter_contributions _ ragged_project origin
             [:: 1%:Z; 2%:Z; 3%:Z] [:: [:: 10%:Z]; [::]; [:: 20%:Z; 30%:Z]]).
Defined.

Lemma df_elementwise_sum_witness :
  exists v,
    [/\ df (Some (demo_project "SCIPY")) origin = Return (NdArray v),
        size v = 2 &
        forall i, (i < 2)%N ->
          nth 0 v i = \sum_(c <- obj_df (demo_project "SCIPY") origin) nth 0 c i].
Proof. by apply: (@df_elementwise_sum _ (demo_project "SCIPY") origin 2). Defined.

Lemma df_empty_raises_witness :
  obj_df bare_project origin = [::] /\ df (Some bare_project) origin = Raise IndexError.
Proof. by split; last apply: (@df_empty_raises _ bare_project origin). Defined.

(** C8, as stated, fails: on an empty gradient-contribution list the gradient
    adapter raises and returns no zero vector of any length. *)
Lemma df_empty_counterexample :
  obj_df bare_project origin = [::] /\
  ~ (exists n, df (Some bare_project) origin = Return (NdArray (nseq n 0))).
Proof. by split=> // -[n]. Qed.

Lemma fieq_negates_witness :
  (0 < size (con_cieq (demo_project "SCIPY") origin))%N /\
  exists out,
    [/\ fieq (Some (demo_project "SCIPY")) origin = Return (NdArray out),
        size out = 2 &
        forall i, (i < 2)%N ->
          nth 0 out i = - nth 0 (con_cieq (demo_project "SCIPY") origin) i].
Proof.
by split; last apply: (@fieq_negates _ (demo_project "SCIPY") origin).
Defined.

Lemma empty_constraints_zero_length_witness :
  [/\ con_ceq bare_project origin = [::],
      con_cieq bare_project origin = [::],
      feq (Some bare_project) origin = Return (NdArray [::]) &
      fieq (Some bare_project) origin = Return (NdArray [::])].
Proof.
have [eq_case ieq_case] := empty_constraints_zero_length bare_project origin.
by split; [ | | apply: eq_case | apply: ieq_case].
Defined.

Lemma unit_hessian_identity_witness :
  size [:: 7%:Z; 8%:Z; 9%:Z] = size [:: 4%:Z; 5%:Z; 6%:Z] /\
  unit_hessian [:: 7%:Z; 8%:Z; 9%:Z] (demo_project "SCIPY")
  = unit_hessian [:: 4%:Z; 5%:Z; 6%:Z] bare_project.
Proof.
split; first by [].
by apply: (proj2 (unit_hessian_identity [:: 4%:Z; 5%:Z; 6%:Z] bare_project)).
Defined.

Lemma simplified_passes_unit_hessian_witness :
  lookup (config (demo_project "SIMPLIFIED")) "SQP_MODE" = Some "SIMPLIFIED"%string /\
  demo_dispatch (demo_project "SIMPLIFIED")
  = Write ("Using simplified SQP iterations " ++ nl)
      (Invoke (SQPequalconstrained origin "func"%string "f_eqcons"%string
                 "fprime"%string "fprime_eqcons"%string (@unit_hessian int)
                 (demo_project "SIMPLIFIED") 10 0 PyNone)
              (fun r => Ret r)).
Proof.
split; first by [].
by apply: (proj1 (@simplified_passes_unit_hessian int string unit (seq int)
             origin "func"%string "f_eqcons"%string "f_ieqcons"%string
             "fprime"%string "fprime_eqcons"%string "fprime_ieqcons"%string
             zero_curvature (demo_project "SIMPLIFIED") 10 0 tt _)).
Defined.

Lemma sqp_les_ignores_inequality_handles_witness :
  lookup (config (demo_project "SQP_LES")) "SQP_MODE" = Some "SQP_LES"%string /\
  @reduced_sqp int string unit (seq int) origin "func"%string "f_eqcons"%string
    "other_ieqcons"%string "fprime"%string "fprime_eqcons"%string
    "other_fprime_ieqcons"%string zero_curvature (demo_project "SQP_LES") 10 0 tt
  = demo_dispatch (demo_project "SQP_LES").
Proof.
split; first by [].
by case: (@sqp_les_ignores_inequality_handles int string unit (seq int)
            origin "func"%string "f_eqcons"%string "f_ieqcons"%string
            "fprime"%string "fprime_eqcons"%string "fprime_ieqcons"%string
            zero_curvature (demo_project "SQP_LES") 10 0 tt
            "other_ieqcons"%string "other_fprime_ieqcons"%string (erefl _)).
Defined.

Lemma unknown_mode_reports_and_stops_witness :
  lookup (config bare_project) "SQP_MODE" = Some "BOGUS"%string /\
  run echo_backend (demo_dispatch bare_project) (MkWorld [::] None)
  = (Raise (UnboundLocalError "outputs"),
     MkWorld [:: ("Please choose a valid SQP_MODE! " ++ nl)%string] None).
Proof.
split; first by [].
refine (let: And3 _ _ run_eq :=
          @unknown_mode_reports_and_stops int string unit (seq int)
            origin "func"%string "f_eqcons"%string "f_ieqcons"%string
            "fprime"%string "fprime_eqcons"%string "fprime_ieqcons"%string
            zero_curvature bare_project 10 0 tt "BOGUS"%string (erefl _) _ _ _ _
        in run_eq echo_backend (MkWorld [::] None)); by [].
Defined.

(** ** The accumulation loops beyond the claims *)

Section Overrun.

Variable R : pzRingType.
Implicit Types (d c pre : seq R) (l : seq (seq R)) (p : Project R) (x : seq R).

Lemma getitem_size pre : getitem pre (size pre) = Raise IndexError.
Proof. by elim: pre. Qed.

(** The inner loop runs off the accumulator as soon as the contribution is
    longer than what is left of it. *)
Lemma inner_loop_overrun c d pre :
  (size d < size c)%N ->
  for_each (@add_at R) c (pre ++ d, size pre) = Raise IndexError.
Proof.
elim: c d pre => [|b c IH] d pre //=.
case: d => [|a d]; first by rewrite cats0 getitem_size.
rewrite ltnS /= => lt_dc; rewrite getitem_cat /= setitem_cat /=.
by rewrite -cat_rcons -(size_rcons pre (a + b)) IH.
Qed.

Lemma add_contribution_overrun d c :
  (size d < size c)%N -> add_contribution d c = Raise IndexError.
Proof. by move=> lt_dc; rewrite /add_contribution (inner_loop_overrun [::]). Qed.

Lemma outer_loop_overrun l d :
  has (fun c => (size d < size c)%N) l ->
  for_each (@add_contribution R) l d = Raise IndexError.
Proof.
elim: l d => [|c l IH] d //=.
case: (leqP (size c) (size d)) => [le_cd | lt_dc] /=.
  by move=> has_l; rewrite add_contributionE //= IH // size_addv.
by rewrite add_contribution_overrun.
Qed.

(** Either no contribution is longer than the first, or one is. *)
Lemma longest_first_or_not c0 rest :
  all (fun c => (size c <= size c0)%N) rest
  || has (fun c => (size c0 < size c)%N) rest.
Proof.
by elim: rest => [|c rest IH] //=; rewrite ltnNge; case: (size c <= size c0)%N.
Qed.

Lemma ddf_first_longest p x c0 rest :
  obj_ddf p x = c0 :: rest ->
  all (fun c => (size c <= size c0)%N) rest ->
  ddf (Some p) x = Return (NdArray (foldl addv (nseq (size c0) 0) (c0 :: rest))).
Proof.
move=> obj_eq le_rest.
rewrite /ddf /= obj_eq /= -/(for_each _ (c0 :: rest) _) outer_loop //.
by rewrite size_nseq /= leqnn.
Qed.

(** X1: a later gradient contribution longer than the first is neither cut
    short nor does it lengthen the result: the gradient adapter ends with an
    index error. *)
Theorem df_overlong_raises p x c0 rest :
  obj_df p x = c0 :: rest ->
  has (fun c => (size c0 < size c)%N) rest ->
  df (Some p) x = Raise IndexError.
Proof.
move=> obj_eq has_long.
rewrite /df /= obj_eq /= -/(for_each _ (c0 :: rest) _) outer_loop_overrun //.
by rewrite size_nseq /= ltnn.
Qed.

(** X2: with the project bound, the gradient adapter returns a value exactly
    when the contribution list is non-empty and no contribution is longer
    than the first; a value it returns is a vector of the first
    contribution's length, and an exception it raises is the index error. *)
Theorem df_returns_iff p x :
  [/\ ((exists v, df (Some p) x = Return v) <->
       (exists c0 rest, obj_df p x = c0 :: rest /\
                        all (fun c => (size c <= size c0)%N) rest)),
      (forall v, df (Some p) x = Return v ->
         exists c0 rest s,
           [/\ obj_df p x = c0 :: rest, v = NdArray s & size s = size c0]) &
      (forall e, df (Some p) x = Raise e -> e = IndexError)].
Proof.
case obj_eq: (obj_df p x) => [|c0 rest].
  have dfE : df (Some p) x = Raise IndexError by rewrite /df /= obj_eq.
  rewrite dfE; split=> [|//|e [] //].
  by split=> [[] //|[c0 [rest []]] //].
have /orP[le_rest | has_long] := longest_first_or_not c0 rest.
  rewrite (df_first_longest obj_eq le_rest); split=> [|v [<-]|//].
    by split=> _; [exists c0, rest | eexists].
  exists c0, rest; eexists; split=> //.
  by rewrite size_foldl_addv size_addv size_nseq.
have dfE : df (Some p) x = Raise IndexError.
  rewrite /df /= obj_eq /= -/(for_each _ (c0 :: rest) _) outer_loop_overrun //.
  by rewrite size_nseq /= ltnn.
rewrite dfE; split=> [|//|e [] //].
split=> [[] //|[c1 [rest1 [[<- <-]]]] le_rest].
move: has_long; rewrite -[has _ _]negbK -all_predC => /negP[].
by apply: sub_all le_rest => c /=; rewrite -leqNgt.
Qed.

(** X3: when the project returns a non-empty list of curvature contributions
    that all have length [n], the curvature adapter returns a vector (not a
    matrix) of length [n] whose entry [i] is the sum of the entries [i]. *)
Theorem ddf_elementwise_sum p x n :
  (0 < size (obj_ddf p x))%N ->
  all (fun c => size c == n) (obj_ddf p x) ->
  exists v,
    [/\ ddf (Some p) x = Return (NdArray v),
        size v = n &
        forall i, (i < n)%N -> nth 0 v i = \sum_(c <- obj_ddf p x) nth 0 c i].
Proof.
case obj_eq: (obj_ddf p x) => [|c0 rest] // _ sz_all.
have /andP[/eqP sz0 sz_rest] := sz_all.
have le_rest : all (fun c => (size c <= size c0)%N) rest.
  by apply: sub_all sz_rest => c /eqP->; rewrite sz0.
exists (foldl addv (nseq (size c0) 0) (c0 :: rest)); split.
- exact: ddf_first_longest.
- by rewrite size_foldl_addv size_nseq.
- move=> i lt_i; rewrite (nth_df_vector le_rest) ?sz0 //.
  exact: (sum_same_size sz_all lt_i).
Qed.

(** X4: the curvature adapter fails with an index error in the two cases
    in which it has no accumulator entry to add to: on an empty contribution
    list, and when a later contribution is longer than the first. *)
Theorem ddf_index_errors p x :
  (obj_ddf p x = [::] \/
   exists c0 rest, obj_ddf p x = c0 :: rest /\
                   has (fun c => (size c0 < size c)%N) rest) ->
  ddf (Some p) x = Raise IndexError.
Proof.
case=> [obj_nil | [c0 [rest [obj_eq has_long]]]]; first by rewrite /ddf /= obj_nil.
rewrite /ddf /= obj_eq /= -/(for_each _ (c0 :: rest) _) outer_loop_overrun //.
by rewrite size_nseq /= ltnn.
Qed.

(** X5: with the project bound, the equality adapter hands on the project's
    equality-constraint values unchanged, as an array, whether or not there
    are any: no sign is flipped and nothing is dropped. *)
Theorem feq_passes_values p x :
  feq (Some p) x = Return (NdArray (con_ceq p x)).
Proof. by rewrite /feq /= /truthy; case: (con_ceq p x). Qed.

(** X6: with the project bound, the inequality adapter never raises, and
    negating its output once more gives back the project's raw
    inequality-constraint values. *)
Theorem fieq_neg_round_trip p x :
  exists out,
    fieq (Some p) x = Return out /\ neg out = Return (NdArray (con_cieq p x)).
Proof.
exists (NdArray [seq - a | a <- con_cieq p x]); split.
  by rewrite /fieq /= /truthy; case: (con_cieq p x).
rewrite /= -map_comp; congr (Return (NdArray _)).
by rewrite -[RHS]map_id; apply: eq_map => a /=; rewrite opprK.
Qed.

End Overrun.

(** ** The dispatcher beyond the claims *)

Section DispatcherModes.

Variable R : pzRingType.
Variables (handle bounds result : Type).
Implicit Types (fdotdot : curvature R) (project : Project R).
Implicit Types (iter : nat) (acc : R) (xb : bounds).
Implicit Types (func f_eqcons f_ieqcons fprime fprime_eqcons fprime_ieqcons : handle).
Implicit Types (w : world R).

Notation dispatch := (@reduced_sqp R handle bounds result).
Notation backend_type :=
  (@backend_call R handle bounds -> world R -> outcome result * world R).

(** The dispatcher, branch by branch. *)
Lemma dispatchE
    x0 func f_eqcons f_ieqcons fprime fprime_eqcons fprime_ieqcons fdotdot
    project iter acc xb :
  dispatch x0 func f_eqcons f_ieqcons fprime fprime_eqcons fprime_ieqcons
    fdotdot project iter acc xb
  = match lookup (config project) "SQP_MODE" with
    | None => Throw (KeyError "SQP_MODE")
    | Some mode =>
        if String.eqb mode "SCIPY" then
          SetGlobProject project
            (Invoke (minimize (@f R) x0 "trust-constr" (@df R) (@ddf R)
                       [:: MkNonlinearConstraint (@feq R) (Finite 0) (Finite 0);
                           MkNonlinearConstraint (@fieq R) (Finite 0) (PosInf R)]
                       xb acc
                       [:: ("maxiter"%string, iter); ("verbose"%string, 3%N)])
                    (fun r => Ret r))
        else if String.eqb mode "SQP_CVXOPT" then
          Write ("Using implemented SQP version. " ++ nl)
            (Invoke (SQPconstrained x0 func f_eqcons f_ieqcons
                       fprime fprime_eqcons fprime_ieqcons fdotdot
                       project iter acc PyNone)
                    (fun r => Ret r))
        else if String.eqb mode "SQP_LES" then
          Write ("Using implemented SQP version. " ++ nl)
            (Invoke (SQPequalconstrained x0 func f_eqcons fprime fprime_eqcons
                       fdotdot project iter acc PyNone)
                    (fun r => Ret r))
        else if String.eqb mode "SIMPLIFIED" then
          Write ("Using simplified SQP iterations " ++ nl)
            (Invoke (SQPequalconstrained x0 func f_eqcons fprime fprime_eqcons
                       (@unit_hessian R) project iter acc PyNone)
                    (fun r => Ret r))
        else
          Write ("Please choose a valid SQP_MODE! " ++ nl)
            (Throw (UnboundLocalError "outputs"))
    end.
Proof.
rewrite /reduced_sqp /config_getitem.
case: (lookup _ _) => [mode|] //=.
by do 4![case: (String.eqb mode _) => //=].
Qed.

Lemma run_invoke (backend : backend_type) c w :
  run backend (Invoke c (fun r => Ret r)) w = backend c w.
Proof. by rewrite /=; case: (backend c w) => [[r|e] w']. Qed.

Lemma run_set (backend : backend_type) (A : Type) project
    (k : prog R handle bounds result A) w :
  run backend (SetGlobProject project k) w
  = run backend k (MkWorld (stdout w) (Some project)).
Proof. by []. Qed.

Lemma run_write (backend : backend_type) (A : Type) text
    (k : prog R handle bounds result A) w :
  run backend (Write text k) w
  = run backend k (MkWorld (rcons (stdout w) text) (glob_project w)).
Proof. by []. Qed.

(** X7: in mode SCIPY the dispatcher writes nothing, binds [glob_project] to
    the project and then calls [minimize] once with this module's adapters:
    [f], [df], [ddf], the equality descriptor [feq] in [0, 0] and the
    inequality descriptor [fieq] in [0, inf), the bounds, the tolerance and
    the options; the back end therefore runs with the project bound, whatever
    was bound before, and its answer is the dispatcher's. *)
Theorem scipy_binds_project_then_minimizes
    x0 func f_eqcons f_ieqcons fprime fprime_eqcons fprime_ieqcons fdotdot
    project iter acc xb :
  lookup (config project) "SQP_MODE" = Some "SCIPY"%string ->
  forall (backend : backend_type) w,
    run backend
      (dispatch x0 func f_eqcons f_ieqcons fprime fprime_eqcons fprime_ieqcons
         fdotdot project iter acc xb) w
    = backend
        (minimize (@f R) x0 "trust-constr" (@df R) (@ddf R)
           [:: MkNonlinearConstraint (@feq R) (Finite 0) (Finite 0);
               MkNonlinearConstraint (@fieq R) (Finite 0) (PosInf R)]
           xb acc [:: ("maxiter"%string, iter); ("verbose"%string, 3%N)])
        (MkWorld (stdout w) (Some project)).
Proof. by move=> mode backend w; rewrite dispatchE mode; exact: run_invoke. Qed.

(** X8: in mode SCIPY none of the seven function handles handed to the
    dispatcher is used: whatever they are, the dispatcher is the same
    program. *)
Theorem scipy_ignores_handles
    x0 func f_eqcons f_ieqcons fprime fprime_eqcons fprime_ieqcons fdotdot
    func' f_eqcons' f_ieqcons' fprime' fprime_eqcons' fprime_ieqcons' fdotdot'
    project iter acc xb :
  lookup (config project) "SQP_MODE" = Some "SCIPY"%string ->
  dispatch x0 func' f_eqcons' f_ieqcons' fprime' fprime_eqcons' fprime_ieqcons'
    fdotdot' project iter acc xb
  = dispatch x0 func f_eqcons f_ieqcons fprime fprime_eqcons fprime_ieqcons
      fdotdot project iter acc xb.
Proof. by move=> mode; rewrite !dispatchE mode. Qed.

(** X9: outside mode SCIPY the box bounds are not used: whatever bounds are
    handed in, the dispatcher is the same program, so no back end other than
    [minimize] ever sees them. *)
Theorem bounds_unused_outside_scipy
    x0 func f_eqcons f_ieqcons fprime fprime_eqcons fprime_ieqcons fdotdot
    project iter acc xb xb' :
  lookup (config project) "SQP_MODE" <> Some "SCIPY"%string ->
  dispatch x0 func f_eqcons f_ieqcons fprime fprime_eqcons fprime_ieqcons
    fdotdot project iter acc xb'
  = dispatch x0 func f_eqcons f_ieqcons fprime fprime_eqcons fprime_ieqcons
      fdotdot project iter acc xb.
Proof.
rewrite !dispatchE; case: (lookup _ _) => [mode|] // not_scipy.
case is_scipy: (String.eqb mode "SCIPY") => //.
by move/String.eqb_eq: is_scipy not_scipy => ->.
Qed.

(** X10: in mode SQP_CVXOPT the dispatcher writes its message and calls
    [SQPconstrained] once, with the starting point, the seven handles in the
    order received, the project, the iteration count, the accuracy and [None];
    [glob_project] is left as it was, and the back end's answer is the
    dispatcher's. *)
Theorem cvxopt_passes_all_handles
    x0 func f_eqcons f_ieqcons fprime fprime_eqcons fprime_ieqcons fdotdot
    project iter acc xb :
  lookup (config project) "SQP_MODE" = Some "SQP_CVXOPT"%string ->
  forall (backend : backend_type) w,
    run backend
      (dispatch x0 func f_eqcons f_ieqcons fprime fprime_eqcons fprime_ieqcons
         fdotdot project iter acc xb) w
    = backend
        (SQPconstrained x0 func f_eqcons f_ieqcons fprime fprime_eqcons
           fprime_ieqcons fdotdot project iter acc PyNone)
        (MkWorld (rcons (stdout w) ("Using implemented SQP version. " ++ nl)%string)
                 (glob_project w)).
Proof. by move=> mode backend w; rewrite dispatchE mode; exact: run_invoke. Qed.

(** X11: the dispatcher binds [glob_project] in mode SCIPY only and never
    unbinds it.  With back ends that leave the name alone, after the call it
    is bound to the project in mode SCIPY (also when the back end raised)
    and is what it was before in every other case. *)
Theorem glob_project_after_run
    x0 func f_eqcons f_ieqcons fprime fprime_eqcons fprime_ieqcons fdotdot
    project iter acc xb (backend : backend_type) w :
  (forall c w', glob_project (backend c w').2 = glob_project w') ->
  glob_project
    (run backend
       (dispatch x0 func f_eqcons f_ieqcons fprime fprime_eqcons fprime_ieqcons
          fdotdot project iter acc xb) w).2
  = match lookup (config project) "SQP_MODE" with
    | Some mode =>
        if String.eqb mode "SCIPY" then Some project else glob_project w
    | None => glob_project w
    end.
Proof.
move=> keeps; rewrite dispatchE; case: (lookup _ _) => [mode|] //.
by do 4![case: (String.eqb mode _);
           first by rewrite ?run_set ?run_write run_invoke keeps].
Qed.


(** X13: the modes other than SCIPY do not make the adapters usable.
    Started with [glob_project] unbound, and with back ends that leave the
    name alone, the dispatcher ends with it still unbound, so that each of
    the five adapters raises the name error on every argument. *)
Theorem adapters_unbound_outside_scipy
    x0 func f_eqcons f_ieqcons fprime fprime_eqcons fprime_ieqcons fdotdot
    project iter acc xb (backend : backend_type) w (x : seq R) :
  lookup (config project) "SQP_MODE" <> Some "SCIPY"%string ->
  glob_project w = None ->
  (forall c w', glob_project (backend c w').2 = glob_project w') ->
  let g :=
    glob_project
      (run backend
         (dispatch x0 func f_eqcons f_ieqcons fprime fprime_eqcons
            fprime_ieqcons fdotdot project iter acc xb) w).2 in
  [/\ f g x = Raise (NameError "glob_project"),
      df g x = Raise (NameError "glob_project"),
      ddf g x = Raise (NameError "glob_project"),
      feq g x = Raise (NameError "glob_project") &
      fieq g x = Raise (NameError "glob_project")].
Proof.
move=> not_scipy unbound keeps g.
suff -> : g = None by [].
rewrite /g dispatchE; case: (lookup _ _) not_scipy => [mode|] // not_scipy.
case is_scipy: (String.eqb mode "SCIPY").
  by move/String.eqb_eq: is_scipy not_scipy => ->.
by do 3![case: (String.eqb mode _);
           first by rewrite ?run_write run_invoke keeps].
Qed.

End DispatcherModes.

(** ** The further theorems at concrete inputs *)

Lemma df_overlong_raises_witness :
  has (fun c => (size [:: 1%:Z] < size c)%N) [:: [:: 1%:Z; 2%:Z]] /\
  df (Some overlong_project) origin = Raise IndexError.
Proof.
split; first by [].
by apply: (@df_overlong_raises _ overlong_project origin [:: 1%:Z] [:: [:: 1%:Z; 2%:Z]]).
Defined.

Lemma ddf_elementwise_sum_witness :
  exists v,
    [/\ ddf (Some (demo_project "SCIPY")) origin = Return (NdArray v),
        size v = 2 &
        forall i, (i < 2)%N ->
          nth 0 v i = \sum_(c <- obj_ddf (demo_project "SCIPY") origin) nth 0 c i].
Proof. by apply: (@ddf_elementwise_sum _ (demo_project "SCIPY") origin 2). Defined.

Lemma ddf_index_errors_witness :
  ddf (Some bare_project) origin = Raise IndexError /\
  ddf (Some overlong_project) origin = Raise IndexError.
Proof.
split; first by apply: (@ddf_index_errors _ bare_project origin); left.
apply: (@ddf_index_errors _ overlong_project origin); right.
by exists [:: 1%:Z], [:: [::]; [:: 1%:Z; 2%:Z; 3%:Z]].
Defined.

Lemma scipy_binds_project_then_minimizes_witness :
  lookup (config (demo_project "SCIPY")) "SQP_MODE" = Some "SCIPY"%string /\
  run echo_backend (demo_dispatch (demo_project "SCIPY")) (MkWorld [::] None)
  = (Return origin, MkWorld [::] (Some (demo_project "SCIPY"))).
Proof.
split; first by [].
by rewrite (@scipy_binds_project_then_minimizes int string unit (seq int)
              origin "func"%string "f_eqcons"%string "f_ieqcons"%string
              "fprime"%string "fprime_eqcons"%string "fprime_ieqcons"%string
              zero_curvature (demo_project "SCIPY") 10 0 tt (erefl _)).
Defined.

Lemma scipy_ignores_handles_witness :
  lookup (config (demo_project "SCIPY")) "SQP_MODE" = Some "SCIPY"%string /\
  @reduced_sqp int string unit (seq int) origin
    "a"%string "b"%string "c"%string "d"%string "e"%string "g"%string
    (@unit_hessian int) (demo_project "SCIPY") 10 0 tt
  = demo_dispatch (demo_project "SCIPY").
Proof.
split; first by [].
by apply: (@scipy_ignores_handles int string unit (seq int) origin).
Defined.

Lemma bounds_unused_outside_scipy_witness :
  lookup (config overlong_project) "SQP_MODE" <> Some "SCIPY"%string /\
  @reduced_sqp int string bool (seq int) origin
    "func"%string "f_eqcons"%string "f_ieqcons"%string
    "fprime"%string "fprime_eqcons"%string "fprime_ieqcons"%string
    zero_curvature overlong_project 10 0 true
  = @reduced_sqp int string bool (seq int) origin
      "func"%string "f_eqcons"%string "f_ieqcons"%string
      "fprime"%string "fprime_eqcons"%string "fprime_ieqcons"%string
      zero_curvature overlong_project 10 0 false.
Proof.
split; first by [].
by apply: (@bounds_unused_outside_scipy int string bool (seq int) origin).
Defined.

Lemma cvxopt_passes_all_handles_witness :
  lookup (config overlong_project) "SQP_MODE" = Some "SQP_CVXOPT"%string /\
  run echo_backend (demo_dispatch overlong_project) (MkWorld [::] None)
  = (Return origin,
     MkWorld [:: ("Using implemented SQP version. " ++ nl)%string] None).
Proof.
split; first by [].
by rewrite (@cvxopt_passes_all_handles int string unit (seq int)
              origin "func"%string "f_eqcons"%string "f_ieqcons"%string
              "fprime"%string "fprime_eqcons"%string "fprime_ieqcons"%string
              zero_curvature overlong_project 10 0 tt (erefl _)).
Defined.

Lemma echo_backend_keeps_glob (c : @backend_call int string unit) (w : world int) :
  glob_project (echo_backend c w).2 = glob_project w.
Proof. by case: c. Defined.

Lemma glob_project_after_run_witness :
  glob_project
    (run echo_backend (demo_dispatch (demo_project "SCIPY")) (MkWorld [::] None)).2
  = Some (demo_project "SCIPY").
Proof.
by rewrite (@glob_project_after_run int string unit (seq int)
              origin "func"%string "f_eqcons"%string "f_ieqcons"%string
              "fprime"%string "fprime_eqcons"%string "fprime_ieqcons"%string
              zero_curvature (demo_project "SCIPY") 10 0 tt echo_backend
              (MkWorld [::] None) echo_backend_keeps_glob).
Defined.


Lemma adapters_unbound_outside_scipy_witness :
  lookup (config (demo_project "SIMPLIFIED")) "SQP_MODE" <> Some "SCIPY"%string /\
  f (glob_project
       (run echo_backend (demo_dispatch (demo_project "SIMPLIFIED"))
          (MkWorld [::] None)).2) origin
  = Raise (NameError "glob_project").
Proof.
split; first by [].
have not_scipy :
  lookup (config (demo_project "SIMPLIFIED")) "SQP_MODE" <> Some "SCIPY"%string by [].
by case: (@adapters_unbound_outside_scipy int string unit (seq int)
            origin "func"%string "f_eqcons"%string "f_ieqcons"%string
            "fprime"%string "fprime_eqcons"%string "fprime_ieqcons"%string
            zero_curvature (demo_project "SIMPLIFIED") 10 0 tt echo_backend
            (MkWorld [::] None) origin not_scipy (erefl _) echo_backend_keeps_glob).
Defined.
